(** * Text moderation agent: the two tools of [agent.py]

    A shallow embedding of [src/agent.py]: the [Deps] dataclass, the
    construction of [text_moderation_agent], and the two tool coroutines
    [analyze_text] and [get_moderation_recommendation].

    The five coroutines imported from [agent_tools] and the string
    [SYSTEM_PROMPT] of [agent_prompts] are not part of the file; they are
    parameters of the development (class [AgentTools], argument
    [SYSTEM_PROMPT]). *)

From Stdlib Require Import ZArith Floats.SpecFloat.
From stdpp Require Import gmap strings list fin_maps.

Open Scope string_scope.

(** ** Python values *)

(** The values that flow through the tools are [Any]: what the helpers return
    is stored in a dict without being inspected.  A [float] is an IEEE
    binary64 datum ([spec_float]); a [dict] with [str] keys is a finite map. *)
#[warnings="-register-all"] Inductive PyVal : Type :=
  | PNone
  | PBool (b : bool)
  | PInt (n : Z)
  | PFloat (x : spec_float)
  | PStr (s : string)
  | PList (l : list PyVal)
  | PDict (m : gmap string PyVal).

(** [Optional[str]] arguments as they are stored in a dict. *)
Definition of_optional (o : option string) : PyVal :=
  match o with
  | Some s => PStr s
  | None => PNone
  end.

(** [v is not None] *)
Definition is_not_None (v : PyVal) : bool :=
  match v with
  | PNone => false
  | _ => true
  end.

(** [v != s] for a string literal [s]: only the [str] equal to [s] compares
    equal to it. *)
Definition py_ne_str (v : PyVal) (s : string) : bool :=
  match v with
  | PStr t => negb (String.eqb t s)
  | _ => true
  end.

(** ** Exceptions *)

Inductive exn : Type :=
  | KeyError (key : string)
  | TypeError (msg : string)
  | OtherError (name msg : string).

Inductive result (A : Type) : Type :=
  | Ret (a : A)
  | Raise (e : exn).
Arguments Ret {A} a.
Arguments Raise {A} e.

(** ** The dependencies record *)

(** [httpx.AsyncClient] is an opaque handle here. *)
Record AsyncClient : Type := { client_id : nat }.

Record Deps : Type := mkDeps {
  client : AsyncClient;
  moderation_api_key : option string;
  custom_content_policies : option (gmap string (list string));
  sensitivity_threshold : spec_float;
  store_flagged_content : bool;
  auto_moderate : bool
}.

(** The binary64 nearest to [0.7]: [0x3FE6666666666666]. *)
Definition float_0_7 : spec_float := S754_finite false 6305039478318694 (-53).
Definition float_0_0 : spec_float := S754_zero false.
Definition float_1_0 : spec_float := S754_finite false 4503599627370496 (-52).

(** The generated [__init__] of the dataclass: every field but [client] has
    a default, and no argument is checked. *)
Definition Deps_init (client : AsyncClient)
    (moderation_api_key : option (option string))
    (custom_content_policies : option (option (gmap string (list string))))
    (sensitivity_threshold : option spec_float)
    (store_flagged_content : option bool)
    (auto_moderate : option bool) : Deps :=
  {| client := client;
     moderation_api_key := default None moderation_api_key;
     custom_content_policies := default None custom_content_policies;
     sensitivity_threshold := default float_0_7 sensitivity_threshold;
     store_flagged_content := default true store_flagged_content;
     auto_moderate := default false auto_moderate |}.

(** [0.0 <= x <= 1.0] on floats (false on NaN). *)
Definition in_unit_interval (x : spec_float) : bool :=
  SFleb float_0_0 x && SFleb x float_1_0.

(** ** The world the coroutines run in *)

(** [RunContext[Deps]]: the tools only use its [deps] attribute. *)
Record RunContext : Type := { deps : Deps }.

(** The context object is shared with the helpers, which are handed [ctx]
    itself: whatever they assign to [ctx.deps] is seen by the tool after the
    call.  [outside] stands for everything else the helpers can reach (the
    network, the moderation service, the model). *)
Record World (X : Type) : Type := mkWorld {
  ctx : RunContext;
  outside : X
}.
Arguments mkWorld {X} ctx outside.
Arguments ctx {X} w.
Arguments outside {X} w.

(** The coroutines of [agent_tools]. *)
Inductive helper : Type :=
  | CheckTextToxicity
  | DetectSensitiveInformation
  | CategorizeContent
  | SuggestContentEdits
  | GetModerationDecision.

#[global] Instance helper_eq_dec : EqDecision helper.
Proof. solve_decision. Defined.

(** What an observer of a run sees: a helper is entered, and later it
    returns or raises.  Each event carries the value of [ctx.deps] at that
    instant. *)
Inductive event : Type :=
  | EvCall (h : helper) (d : Deps)
  | EvReturn (h : helper) (d : Deps)
  | EvRaise (h : helper) (d : Deps).

Definition ev_deps (ev : event) : Deps :=
  match ev with
  | EvCall _ d | EvReturn _ d | EvRaise _ d => d
  end.

Definition is_call (h : helper) (ev : event) : bool :=
  match ev with
  | EvCall h' _ => bool_decide (h' = h)
  | _ => false
  end.

Definition is_raise (ev : event) : bool :=
  match ev with
  | EvRaise _ _ => true
  | _ => false
  end.

(** How many times [h] was entered in a trace. *)
Definition calls_of (h : helper) (tr : list event) : nat :=
  length (filter (λ ev, is_call h ev = true) tr).

(** The trace without the snapshots. *)
Inductive mark : Type :=
  | Enter (h : helper)
  | Leave (h : helper)
  | Fail (h : helper).

Definition mark_of (ev : event) : mark :=
  match ev with
  | EvCall h _ => Enter h
  | EvReturn h _ => Leave h
  | EvRaise h _ => Fail h
  end.

Record state (X : Type) : Type := mkState {
  world : World X;
  trace : list event      (* oldest event first *)
}.
Arguments mkState {X} world trace.
Arguments world {X} s.
Arguments trace {X} s.

(** A coroutine that is awaited to completion: it ends with a value or with
    an exception, and leaves a state behind in both cases. *)
Definition M (X A : Type) : Type := state X → result A * state X.

#[global] Instance M_ret {X} : MRet (M X) := λ A a s, (Ret a, s).

#[global] Instance M_bind {X} : MBind (M X) := λ A B f m s,
  match m s with
  | (Ret a, s1) => f a s1
  | (Raise e, s1) => (Raise e, s1)
  end.

(** A pure computation that may raise. *)
Definition lift {X A} (r : result A) : M X A := λ s, (r, s).

(** [v[k]] for a string key. *)
Definition subscript (v : PyVal) (k : string) : result PyVal :=
  match v with
  | PDict m =>
      match m !! k with
      | Some x => Ret x
      | None => Raise (KeyError k)
      end
  | _ => Raise (TypeError "object is not subscriptable by a str key")
  end.

(** [ctx.deps] *)
Definition get_deps {X} : M X Deps := λ s, (Ret (deps (ctx (world s))), s).

Definition log {X} (ev : event) (s : state X) : state X :=
  mkState (world s) (trace s ++ [ev]).

(** [await f(ctx, ...)]: the helper runs on the current world until it
    returns or raises; nothing else of this coroutine runs meanwhile. *)
Definition await {X} (h : helper) (f : World X → result PyVal * World X)
    : M X PyVal := λ s,
  let s0 := log (EvCall h (deps (ctx (world s)))) s in
  match f (world s0) with
  | (Ret v, w) => (Ret v, log (EvReturn h (deps (ctx w))) (mkState w (trace s0)))
  | (Raise e, w) => (Raise e, log (EvRaise h (deps (ctx w))) (mkState w (trace s0)))
  end.

(** [with logfire.span(name, attributes=...)]: the span records what happens
    in its body and lets results and exceptions through. *)
Definition logfire_span {X A} (name : string) (attributes : gmap string PyVal)
    (body : M X A) : M X A := body.

(** ** The interface of [agent_tools] *)

(** Each helper receives [ctx] (here: the world that holds it) and its
    other arguments. *)
Class AgentTools (X : Type) : Type := {
  check_text_toxicity : string → World X → result PyVal * World X;
  detect_sensitive_information : string → World X → result PyVal * World X;
  categorize_content : string → option string → World X → result PyVal * World X;
  suggest_content_edits : PyVal → PyVal → World X → result PyVal * World X;
  get_moderation_decision : PyVal → World X → result PyVal * World X
}.

(** ** The agent *)

Inductive AgentArg : Type :=
  | ArgStr (s : string)
  | ArgClass (name : string)
  | ArgInt (n : Z).

(** The call [Agent(model, **kwargs)] as it is written. *)
Record AgentCall : Type := {
  model : string;
  kwargs : list (string * AgentArg)
}.

Fixpoint assoc {A} (k : string) (l : list (string * A)) : option A :=
  match l with
  | [] => None
  | (k', v) :: l' => if String.eqb k' k then Some v else assoc k l'
  end.

Definition kwarg (a : AgentCall) (k : string) : option AgentArg :=
  assoc k (kwargs a).

Definition text_moderation_agent (SYSTEM_PROMPT : string) : AgentCall :=
  {| model := "openai:gpt-4o";
     kwargs := [ ("system_prompt", ArgStr SYSTEM_PROMPT);
                 ("deps_type", ArgClass "Deps");
                 ("retries", ArgInt 2) ] |}.

(** ** The tools *)

Section Tools.
Context {X : Type} `{!AgentTools X}.

Definition analyze_text (text : string) (context user_id : option string)
    : M X PyVal :=
  logfire_span "analyzing_text"
    (<["has_context" := PBool (is_not_None (of_optional context))]>
       (<["text_length" := PInt (Z.of_nat (String.length text))]> ∅))
    (toxicity_result ← await CheckTextToxicity (check_text_toxicity text);
     sensitive_info ← await DetectSensitiveInformation
                        (detect_sensitive_information text);
     categories ← await CategorizeContent (categorize_content text context);
     mret (PDict
       (<["user_id" := of_optional user_id]>
       (<["context" := of_optional context]>
       (<["categories" := categories]>
       (<["sensitive_information" := sensitive_info]>
       (<["toxicity" := toxicity_result]>
       (<["text" := PStr text]> ∅)))))))).

Definition get_moderation_recommendation
    (analysis_result : gmap string PyVal) : M X PyVal :=
  logfire_span "getting_moderation_recommendation" ∅
    (decision ← await GetModerationDecision
                  (get_moderation_decision (PDict analysis_result));
     action ← lift (subscript decision "action");
     flagged ← (if py_ne_str action "approve"
                then d ← get_deps; mret (auto_moderate d)
                else mret false);
     suggested_edits ←
       (if flagged : bool
        then text ← lift (subscript (PDict analysis_result) "text");
             reasons ← lift (subscript decision "reasons");
             await SuggestContentEdits (suggest_content_edits text reasons)
        else mret PNone);
     original_text ← lift (subscript (PDict analysis_result) "text");
     decision_action ← lift (subscript decision "action");
     confidence ← lift (subscript decision "confidence");
     reasons ← lift (subscript decision "reasons");
     policy_violations ← lift (subscript decision "policy_violations");
     toxicity_scores ← lift (subscript (PDict analysis_result) "toxicity");
     categories ← lift (subscript (PDict analysis_result) "categories");
     mret (PDict
       (<["categories" := categories]>
       (<["toxicity_scores" := toxicity_scores]>
       (<["suggested_edits" := suggested_edits]>
       (<["policy_violations" := policy_violations]>
       (<["reasons" := reasons]>
       (<["confidence" := confidence]>
       (<["decision" := decision_action]>
       (<["original_text" := original_text]> ∅)))))))))).

End Tools.

(** A run of a tool from a fresh trace. *)
Definition run {X A} (m : M X A) (w : World X) : result A * state X :=
  m (mkState w []).

(** ** A concrete set of helpers, to run the tools on *)

(** The outside world is a counter of the requests made so far.  Every
    helper bumps it and leaves [ctx] alone; the decision helper answers with
    the value it is given, and the edit helper may be made to fail. *)
Definition bump (w : World nat) : World nat := mkWorld (ctx w) (S (outside w)).

Definition demo_tools (decision : result PyVal) (edits : result PyVal)
    : AgentTools nat :=
  {| check_text_toxicity := λ text w,
       (Ret (PDict (<["toxicity" := PFloat float_0_7]> ∅)), bump w);
     detect_sensitive_information := λ text w, (Ret (PList []), bump w);
     categorize_content := λ text context w,
       (Ret (PList [PStr "harassment"]), bump w);
     suggest_content_edits := λ text reasons w, (edits, bump w);
     get_moderation_decision := λ analysis_result w, (decision, bump w) |}.

Definition demo_decision_map (action : string) : gmap string PyVal :=
  <["policy_violations" := PList [PStr "harassment"]]>
  (<["reasons" := PList [PStr "insult"]]>
  (<["confidence" := PFloat float_0_7]>
  (<["action" := PStr action]> ∅))).

Definition demo_decision (action : string) : PyVal :=
  PDict (demo_decision_map action).

Definition demo_analysis : gmap string PyVal :=
  <["categories" := PList [PStr "harassment"]]>
  (<["toxicity" := PDict (<["toxicity" := PFloat float_0_7]> ∅)]>
  (<["text" := PStr "you fool"]> ∅)).

Definition demo_world (auto : bool) : World nat :=
  mkWorld {| deps := Deps_init {| client_id := 0 |} None None None None (Some auto) |} 0.

(** [ctx.deps.auto_moderate = b] *)
Definition set_auto_moderate (b : bool) (w : World nat) : World nat :=
  let d := deps (ctx w) in
  mkWorld {| deps := mkDeps (client d) (moderation_api_key d)
                       (custom_content_policies d) (sensitivity_threshold d)
                       (store_flagged_content d) b |} (outside w).

(** Helpers whose decision helper switches [auto_moderate] on. *)
Definition meddling_tools : AgentTools nat :=
  {| check_text_toxicity := λ text w, (Ret PNone, bump w);
     detect_sensitive_information := λ text w, (Ret PNone, bump w);
     categorize_content := λ text context w, (Ret PNone, bump w);
     suggest_content_edits := λ text reasons w, (Ret (PStr "you are mistaken"), bump w);
     get_moderation_decision := λ analysis_result w,
       (Ret (demo_decision "reject"), set_auto_moderate true (bump w)) |}.

(** The helpers of a run that rejects a post and proposes an edit. *)
Definition reject_tools : AgentTools nat :=
  demo_tools (Ret (demo_decision "reject")) (Ret (PStr "you are mistaken")).

(** An analysis result without its text entry. *)
Definition textless_analysis : gmap string PyVal :=
  <["categories" := PList [PStr "harassment"]]>
  (<["toxicity" := PDict (<["toxicity" := PFloat float_0_7]> ∅)]> ∅).

(** An analysis result without its toxicity entry. *)
Definition partial_analysis : gmap string PyVal :=
  <["categories" := PList [PStr "harassment"]]> (<["text" := PStr "you fool"]> ∅).

(** [5.0] *)
Definition float_5_0 : spec_float := S754_finite false 5629499534213120 (-50).

(** ** Vocabulary of the properties *)

(** A completed invocation of one of the two tools, from a fresh trace. *)
Definition tool_run {X} `{!AgentTools X} (w : World X) (r : result PyVal)
    (s' : state X) : Prop :=
  (∃ text context user_id, run (analyze_text text context user_id) w = (r, s')) ∨
  (∃ analysis_result, run (get_moderation_recommendation analysis_result) w = (r, s')).

(** The test of line 101, on the decision's action and on [ctx.deps] as the
    tool finds it when it makes the test. *)
Definition edits_wanted (action : PyVal) (d : Deps) : Prop :=
  action ≠ PStr "approve" ∧ auto_moderate d = true.

(** The keys [get_moderation_recommendation] looks up. *)
Definition analysis_keys : list string := ["text"; "toxicity"; "categories"].
Definition decision_keys : list string :=
  ["action"; "confidence"; "reasons"; "policy_violations"].

Definition lacks (m : gmap string PyVal) (k : string) : bool :=
  match m !! k with
  | Some _ => false
  | None => true
  end.

Definition missing_keys (analysis_result decision : gmap string PyVal)
    : list string :=
  List.filter (lacks analysis_result) analysis_keys ++
  List.filter (lacks decision) decision_keys.

(** A helper call that leaves [ctx.deps] as it found it, however it ends. *)
Definition keeps_deps {X} (f : World X → result PyVal * World X) : Prop :=
  ∀ w, deps (ctx (f w).2) = deps (ctx w).

(** Modelled from the spec: the helpers of [agent_tools], which are not part
    of the source and are handed [ctx].  The spec's data model has the
    dependencies "created once per run; immutable thereafter"; for the
    helpers it means that none of them assigns to [ctx.deps]. *)
Definition tools_preserve_deps {X} `{!AgentTools X} : Prop :=
  (∀ text, keeps_deps (check_text_toxicity text)) ∧
  (∀ text, keeps_deps (detect_sensitive_information text)) ∧
  (∀ text context, keeps_deps (categorize_content text context)) ∧
  (∀ text reasons, keeps_deps (suggest_content_edits text reasons)) ∧
  (∀ analysis_result, keeps_deps (get_moderation_decision analysis_result)).

(** Along a trace that starts with [ctx.deps = d] and ends with
    [ctx.deps = d_end], the value only changes between the entry of a helper
    and the return or raise that answers it. *)
Fixpoint changes_only_inside_helpers (d : Deps) (tr : list event)
    (d_end : Deps) : Prop :=
  match tr with
  | [] => d = d_end
  | EvCall h d1 :: tr1 =>
      d1 = d ∧
      match tr1 with
      | EvReturn h' d2 :: tr2 | EvRaise h' d2 :: tr2 =>
          h' = h ∧ changes_only_inside_helpers d2 tr2 d_end
      | _ => False
      end
  | _ => False
  end.

(** Modelled from the spec: what [get_moderation_decision] returns.  The
    coroutine belongs to [agent_tools], which is not part of the source; the
    spec's data model describes its result as a "mapping containing action
    (one of approve/flag_for_review/reject), confidence score, list of
    reasons, list of policy violations". *)
Definition is_action (v : PyVal) : bool :=
  match v with
  | PStr s => bool_decide (s ∈ ["approve"; "flag_for_review"; "reject"])
  | _ => false
  end.

Definition is_score (v : PyVal) : bool :=
  match v with
  | PFloat _ | PInt _ => true
  | _ => false
  end.

Definition is_list (v : PyVal) : bool :=
  match v with
  | PList _ => true
  | _ => false
  end.

Definition entry_is (m : gmap string PyVal) (k : string) (p : PyVal → bool)
    : bool :=
  match m !! k with
  | Some v => p v
  | None => false
  end.

Definition is_moderation_decision (v : PyVal) : bool :=
  match v with
  | PDict m =>
      entry_is m "action" is_action && entry_is m "confidence" is_score &&
      entry_is m "reasons" is_list && entry_is m "policy_violations" is_list
  | _ => false
  end.

(** Modelled from the spec: [get_moderation_decision], absent from the
    source, returns a moderation decision whenever it returns. *)
Definition decision_contract {X} `{!AgentTools X} : Prop :=
  ∀ analysis_result w v w',
    get_moderation_decision analysis_result w = (Ret v, w') →
    is_moderation_decision v = true.

(** The lookups [get_moderation_recommendation] makes once it has read
    [decision["action"]], in the order it makes them: the two arguments of
    the edit call when the test of line 101 succeeded ([flagged]), then the
    entries of the returned dict.  [true] marks a key of [analysis_result],
    [false] a key of the decision. *)
Definition lookup_order (flagged : bool) : list (bool * string) :=
  (if flagged then [(true, "text"); (false, "reasons")] else []) ++
  [ (true, "text"); (false, "action"); (false, "confidence");
    (false, "reasons"); (false, "policy_violations"); (true, "toxicity");
    (true, "categories") ].

(** The first of them that fails. *)
Definition first_missing (analysis_result decision : gmap string PyVal)
    (flagged : bool) : option string :=
  snd <$> List.find
            (λ p : bool * string,
               lacks (if p.1 then analysis_result else decision) p.2)
            (lookup_order flagged).

(** The traces a run of [analyze_text] can leave. *)
Definition analyze_text_traces : list (list mark) :=
  [ [ Enter CheckTextToxicity; Fail CheckTextToxicity ];
    [ Enter CheckTextToxicity; Leave CheckTextToxicity;
      Enter DetectSensitiveInformation; Fail DetectSensitiveInformation ];
    [ Enter CheckTextToxicity; Leave CheckTextToxicity;
      Enter DetectSensitiveInformation; Leave DetectSensitiveInformation;
      Enter CategorizeContent; Fail CategorizeContent ];
    [ Enter CheckTextToxicity; Leave CheckTextToxicity;
      Enter DetectSensitiveInformation; Leave DetectSensitiveInformation;
      Enter CategorizeContent; Leave CategorizeContent ] ].

(** Whether a trace ends with a helper that raised. *)
Definition ends_in_failure (tr : list mark) : bool :=
  match last tr with
  | Some (Fail _) => true
  | _ => false
  end.

(** Helpers whose edit helper fails. *)
Definition failing_edit_tools : AgentTools nat :=
  demo_tools (Ret (demo_decision "reject"))
    (Raise (OtherError "TimeoutError" "edit service")).

(** Helpers whose decision helper fails. *)
Definition failing_decision_tools : AgentTools nat :=
  demo_tools (Raise (OtherError "HTTPStatusError" "503")) (Ret PNone).

(** The traces a run of [get_moderation_recommendation] can leave. *)
Definition recommendation_traces : list (list mark) :=
  [ [ Enter GetModerationDecision; Fail GetModerationDecision ];
    [ Enter GetModerationDecision; Leave GetModerationDecision ];
    [ Enter GetModerationDecision; Leave GetModerationDecision;
      Enter SuggestContentEdits; Fail SuggestContentEdits ];
    [ Enter GetModerationDecision; Leave GetModerationDecision;
      Enter SuggestContentEdits; Leave SuggestContentEdits ] ].

(** A world whose dependencies were built from a client alone. *)
Definition default_world : World nat :=
  mkWorld {| deps := Deps_init {| client_id := 0 |} None None None None None |} 0.

(** * Properties *)

(** ** Generic facts *)

Lemma py_ne_str_spec (v : PyVal) (s : string) :
  py_ne_str v s = true ↔ v ≠ PStr s.
Proof.
  destruct v; simpl; try (split; [discriminate | done]).
  rewrite negb_true_iff. split.
  - intros Hne [= ->]. by rewrite String.eqb_refl in Hne.
  - intros Hne. apply String.eqb_neq. congruence.
Qed.

Lemma py_ne_str_false (v : PyVal) (s : string) :
  py_ne_str v s = false ↔ v = PStr s.
Proof.
  destruct v; simpl; try (split; discriminate).
  rewrite negb_false_iff, String.eqb_eq. split; congruence.
Qed.

Lemma calls_of_nil (h : helper) : calls_of h [] = 0.
Proof. done. Qed.

Lemma calls_of_cons (h : helper) (ev : event) (tr : list event) :
  calls_of h (ev :: tr) = (if is_call h ev then 1 else 0) + calls_of h tr.
Proof.
  unfold calls_of. rewrite filter_cons.
  destruct (is_call h ev); by case_decide.
Qed.

Lemma is_action_spec (v : PyVal) :
  is_action v = true →
  v = PStr "approve" ∨ v = PStr "flag_for_review" ∨ v = PStr "reject".
Proof.
  destruct v as [| | | |s| |]; simpl; try discriminate.
  intros Hs%bool_decide_eq_true.
  repeat (apply elem_of_cons in Hs as [->|Hs]; [by eauto|]).
  by apply elem_of_nil in Hs.
Qed.

Lemma moderation_decision_action (v : PyVal) :
  is_moderation_decision v = true →
  ∃ action, subscript v "action" = Ret action ∧ is_action action = true.
Proof.
  destruct v as [| | | | | |m]; simpl; try discriminate.
  unfold entry_is. destruct (m !! "action") as [a|]; [|done].
  intros Hm. exists a. split; [done|].
  by repeat (apply andb_prop in Hm as [Hm _]).
Qed.

(** What a helper that keeps [ctx.deps] leaves behind. *)
Lemma keeps_deps_eq {X} (f : World X → result PyVal * World X)
    (w w' : World X) (r : result PyVal) :
  keeps_deps f → f w = (r, w') → deps (ctx w') = deps (ctx w).
Proof. intros Hf Hw. specialize (Hf w). by rewrite Hw in Hf. Qed.





Lemma demo_tools_preserve_deps (decision edits : result PyVal) :
  @tools_preserve_deps nat (demo_tools decision edits).
Proof. by repeat split. Qed.

Lemma demo_decision_contract (action : string) (edits : result PyVal) :
  action ∈ ["approve"; "flag_for_review"; "reject"] →
  @decision_contract nat (demo_tools (Ret (demo_decision action)) edits).
Proof.
  intros Hin ar w v w' [= <- _]. simpl. unfold entry_is.
  simplify_map_eq. simpl. by rewrite bool_decide_eq_true_2.
Qed.



(** Replaces what is known of each helper call by what it says of
    [ctx.deps], given that the helpers keep it. *)
Ltac deps_kept :=
  repeat match goal with
         | Hk : tools_preserve_deps |- _ => destruct Hk as (?&?&?&?&?)
         | E : check_text_toxicity ?t ?w = (_, _),
           Hk : ∀ _, keeps_deps (check_text_toxicity _) |- _ =>
             apply (keeps_deps_eq _ _ _ _ (Hk t)) in E
         | E : detect_sensitive_information ?t ?w = (_, _),
           Hk : ∀ _, keeps_deps (detect_sensitive_information _) |- _ =>
             apply (keeps_deps_eq _ _ _ _ (Hk t)) in E
         | E : categorize_content ?t ?c ?w = (_, _),
           Hk : ∀ _ _, keeps_deps (categorize_content _ _) |- _ =>
             apply (keeps_deps_eq _ _ _ _ (Hk t c)) in E
         | E : suggest_content_edits ?t ?c ?w = (_, _),
           Hk : ∀ _ _, keeps_deps (suggest_content_edits _ _) |- _ =>
             apply (keeps_deps_eq _ _ _ _ (Hk t c)) in E
         | E : get_moderation_decision ?t ?w = (_, _),
           Hk : ∀ _, keeps_deps (get_moderation_decision _) |- _ =>
             apply (keeps_deps_eq _ _ _ _ (Hk t)) in E
         end.

(** Unfolds a tool down to the helper calls it makes. *)
Ltac unfold_tool :=
  unfold run, analyze_text, get_moderation_recommendation, logfire_span,
    mbind, M_bind, mret, M_ret, await, lift, get_deps, log in *;
  cbn [world trace fst snd] in *.

(** Closes a goal from hypotheses that disagree, or agree, on how the helper
    calls ended. *)
Ltac by_helper_outcomes :=
  repeat match goal with
         | H : _ ∨ _ |- _ => destruct H
         | H : ∃ _, _ |- _ => destruct H
         | H : _ ∧ _ |- _ => destruct H
         end;
  simplify_eq;
  repeat match goal with
         | E : ?t = (_, _), H : context [?t] |- _ => rewrite E in H; simplify_eq/=
         end;
  done.

(** ** [analyze_text] *)

Section AnalyzeText.
Context {X : Type} `{!AgentTools X}.

(** C2. Whenever [analyze_text] returns, what it returns is a dict with
    exactly the six keys text, toxicity, sensitive_information, categories,
    context and user_id, and the entries under text, context and user_id are
    the arguments it was given (a missing optional argument being [None]). *)
Theorem analyze_text_six_keys (text : string) (context user_id : option string)
    (s s' : state X) (out : PyVal) :
  analyze_text text context user_id s = (Ret out, s') →
  ∃ m : gmap string PyVal,
    out = PDict m ∧
    dom m = list_to_set ["text"; "toxicity"; "sensitive_information";
                         "categories"; "context"; "user_id"] ∧
    size m = 6 ∧
    m !! "text" = Some (PStr text) ∧
    m !! "context" = Some (of_optional context) ∧
    m !! "user_id" = Some (of_optional user_id).
Proof.
  intros Hrun. unfold_tool. repeat case_match; simplify_eq.
  eexists; split; [reflexivity|].
  split; [|split; [|by simplify_map_eq]].
  - rewrite !dom_insert_L, dom_empty_L. set_solver.
  - rewrite !map_size_insert_None by by simplify_map_eq.
    by rewrite map_size_empty.
Qed.

(** C3. [analyze_text] ends with an exception [e] exactly when one of its
    three helper calls (the toxicity check on the initial world, the
    sensitive-information detection on the world the first left, the
    categorization on the world the second left) ended with [e]: a helper's
    exception reaches the caller as it is and no result is returned, and the
    tool raises nothing of its own, so no argument is ever rejected. *)
Theorem analyze_text_propagates (text : string) (context user_id : option string)
    (s : state X) (e : exn) :
  (analyze_text text context user_id s).1 = Raise e ↔
    (check_text_toxicity text (world s)).1 = Raise e ∨
    (∃ v1 w1, check_text_toxicity text (world s) = (Ret v1, w1) ∧
       (detect_sensitive_information text w1).1 = Raise e) ∨
    (∃ v1 w1 v2 w2, check_text_toxicity text (world s) = (Ret v1, w1) ∧
       detect_sensitive_information text w1 = (Ret v2, w2) ∧
       (categorize_content text context w2).1 = Raise e).
Proof.
  unfold_tool.
  destruct (check_text_toxicity text (world s)) as [[v1|e1] w1] eqn:E1; simpl.
  2: { split; [by left | intros Hd; by_helper_outcomes]. }
  destruct (detect_sensitive_information text w1) as [[v2|e2] w2] eqn:E2; simpl.
  2: { split; [|intros Hd; by_helper_outcomes].
       intros [= ->]. right; left. exists v1, w1. by rewrite E2. }
  destruct (categorize_content text context w2) as [[v3|e3] w3] eqn:E3; simpl.
  - split; [done | intros Hd; by_helper_outcomes].
  - split; [|intros Hd; by_helper_outcomes].
    intros [= ->]. right; right. exists v1, w1, v2, w2. by rewrite E3.
Qed.

(** C4. In a run of [analyze_text] that returns, the observable trace is:
    the toxicity check is entered and left, then the sensitive-information
    detection is entered and left, then the categorization is entered and
    left.  So each of the three is called exactly once, in that order, none
    starts before the previous one has completed, each runs on the world its
    predecessor left, and the two other helpers are not called at all. *)
Theorem analyze_text_call_order (text : string) (context user_id : option string)
    (w : World X) (out : PyVal) (s' : state X) :
  run (analyze_text text context user_id) w = (Ret out, s') →
  mark_of <$> trace s' =
    [ Enter CheckTextToxicity; Leave CheckTextToxicity;
      Enter DetectSensitiveInformation; Leave DetectSensitiveInformation;
      Enter CategorizeContent; Leave CategorizeContent ] ∧
  calls_of CheckTextToxicity (trace s') = 1 ∧
  calls_of DetectSensitiveInformation (trace s') = 1 ∧
  calls_of CategorizeContent (trace s') = 1 ∧
  calls_of SuggestContentEdits (trace s') = 0 ∧
  calls_of GetModerationDecision (trace s') = 0 ∧
  ∃ v1 w1 v2 w2 v3,
    check_text_toxicity text w = (Ret v1, w1) ∧
    detect_sensitive_information text w1 = (Ret v2, w2) ∧
    categorize_content text context w2 = (Ret v3, world s').
Proof.
  intros Hrun. unfold_tool. repeat case_match; simplify_eq.
  repeat split; try done. eauto 10.
Qed.

End AnalyzeText.


(** The tool on the concrete helpers: a forum post with a context and no
    user id. *)
Lemma analyze_text_six_keys_witness :
  ∃ (out : PyVal) (s' : state nat),
    @analyze_text nat (demo_tools (Ret PNone) (Ret PNone))
      "you fool" (Some "forum") None (mkState (demo_world false) [])
      = (Ret out, s') ∧
    ∃ m : gmap string PyVal,
      out = PDict m ∧
      dom m = list_to_set ["text"; "toxicity"; "sensitive_information";
                           "categories"; "context"; "user_id"] ∧
      size m = 6 ∧
      m !! "text" = Some (PStr "you fool") ∧
      m !! "context" = Some (of_optional (Some "forum")) ∧
      m !! "user_id" = Some (of_optional None).
Proof.
  eexists _, _. split; [reflexivity|].
  eapply (@analyze_text_six_keys nat (demo_tools (Ret PNone) (Ret PNone))
            "you fool" (Some "forum") None (mkState (demo_world false) [])).
  reflexivity.
Defined.

Lemma analyze_text_call_order_witness :
  ∃ (out : PyVal) (s' : state nat),
    run (@analyze_text nat (demo_tools (Ret PNone) (Ret PNone))
           "you fool" None (Some "u42")) (demo_world false) = (Ret out, s') ∧
    mark_of <$> trace s' =
      [ Enter CheckTextToxicity; Leave CheckTextToxicity;
        Enter DetectSensitiveInformation; Leave DetectSensitiveInformation;
        Enter CategorizeContent; Leave CategorizeContent ] ∧
    outside (world s') = 3.
Proof.
  eexists _, _. split; [reflexivity|].
  split; [|reflexivity].
  eapply (@analyze_text_call_order nat (demo_tools (Ret PNone) (Ret PNone))
            "you fool" None (Some "u42") (demo_world false)).
  reflexivity.
Defined.

(** A failure of the second helper reaches the caller, and the third helper
    is not entered. *)
Example analyze_text_second_helper_raises :
  let tools :=
    {| check_text_toxicity := λ text w, (Ret PNone, bump w);
       detect_sensitive_information := λ text w,
         (Raise (OtherError "HTTPStatusError" "503"), bump w);
       categorize_content := λ text context w, (Ret PNone, bump w);
       suggest_content_edits := λ text reasons w, (Ret PNone, bump w);
       get_moderation_decision := λ analysis_result w, (Ret PNone, bump w) |} in
  let '(r, s') := run (@analyze_text nat tools "hello" None None) (demo_world false) in
  r = Raise (OtherError "HTTPStatusError" "503") ∧
  mark_of <$> trace s' =
    [ Enter CheckTextToxicity; Leave CheckTextToxicity;
      Enter DetectSensitiveInformation; Fail DetectSensitiveInformation ].
Proof. by vm_compute. Qed.

(** ** [get_moderation_recommendation] *)

Section Recommendation.
Context {X : Type} `{!AgentTools X}.

(** C1, amended. Take a run of [get_moderation_recommendation] in which the
    decision helper returned [decision] and [decision["action"]] is [action],
    and let
    [d] be [ctx.deps] as the tool reads it at the test of line 101, that is,
    as the decision helper left it; [d] is the Deps the run started with
    whenever the helpers do not assign to [ctx.deps].
    The edit helper is called at most once, and only if the action is not
    "approve" and [d.auto_moderate] is true; it is called whenever that
    holds and its two arguments can be looked up.  If the run returns a
    mapping, its suggested_edits entry is non-null only if the action is not
    "approve" and [d.auto_moderate] is true, it is null whenever
    [d.auto_moderate] is false, and the edit helper was called exactly when
    the action is not "approve" and [d.auto_moderate] is true. *)
Theorem suggested_edits_gate (analysis_result : gmap string PyVal)
    (w w1 : World X) (decision action : PyVal) (r : result PyVal) (s' : state X) :
  get_moderation_decision (PDict analysis_result) w = (Ret decision, w1) →
  subscript decision "action" = Ret action →
  run (get_moderation_recommendation analysis_result) w = (r, s') →
  let d := deps (ctx w1) in
  let calls := calls_of SuggestContentEdits (trace s') in
  (tools_preserve_deps → d = deps (ctx w)) ∧
  (calls ≤ 1)%nat ∧
  (calls = 1 → edits_wanted action d) ∧
  (edits_wanted action d →
   is_Some (analysis_result !! "text") →
   (∃ reasons, subscript decision "reasons" = Ret reasons) →
   calls = 1) ∧
  ∀ out, r = Ret out →
    ∃ (m : gmap string PyVal) (suggested_edits : PyVal),
      out = PDict m ∧
      m !! "suggested_edits" = Some suggested_edits ∧
      (suggested_edits ≠ PNone → edits_wanted action d) ∧
      (auto_moderate d = false → suggested_edits = PNone) ∧
      (calls = 1 ↔ edits_wanted action d).
Proof.
  intros Hdec Hact Hrun d calls. subst d calls.
  split; [intros Hkeep; by deps_kept|].
  unfold edits_wanted.
  unfold_tool. rewrite Hdec in Hrun. rewrite Hact in Hrun.
  destruct (py_ne_str action "approve") eqn:Hne;
    [apply py_ne_str_spec in Hne;
     destruct (auto_moderate (deps (ctx w1))) eqn:Hauto
    |apply py_ne_str_false in Hne].
  all: cbn in Hrun; repeat (case_match; simplify_eq/=).
  all: rewrite ?calls_of_cons, ?calls_of_nil; simpl.
  all: split; [lia|]; split; [try done; lia|]; split.
  all: try (intros [??] [??] [??]; simplify_eq/=; done).
  all: try done.
  all: intros ? [= <-]; do 2 eexists; split; [reflexivity|];
    split; [by simplify_map_eq|].
  all: split; [done|]; split; [done|]; split; [done|]; intros [??]; simplify_eq; lia.
Qed.

(** C5. Given that the decision helper returns moderation decisions as the
    spec describes them, the decision entry of the mapping that
    [get_moderation_recommendation] returns is one of "approve",
    "flag_for_review" and "reject": the tool copies the helper's action. *)
Theorem decision_is_an_action (analysis_result : gmap string PyVal)
    (s s' : state X) (out : PyVal) :
  decision_contract →
  get_moderation_recommendation analysis_result s = (Ret out, s') →
  ∃ (m : gmap string PyVal) (action : PyVal),
    out = PDict m ∧
    m !! "decision" = Some action ∧
    (action = PStr "approve" ∨ action = PStr "flag_for_review" ∨
     action = PStr "reject").
Proof.
  intros Hcontract Hrun. unfold_tool.
  destruct (get_moderation_decision _ _) as [[decision|e] w1] eqn:Hdec;
    [|done].
  apply Hcontract, moderation_decision_action in Hdec as (action & Hact & Hok).
  rewrite Hact in Hrun. cbn in Hrun.
  repeat (case_match; simplify_eq/=).
  all: do 2 eexists; split; [reflexivity|]; split; [by simplify_map_eq|].
  all: by apply is_action_spec.
Qed.

(** C9. Whenever [get_moderation_recommendation] returns, what it returns is
    a dict with exactly the eight keys original_text, decision, confidence,
    reasons, policy_violations, suggested_edits, toxicity_scores and
    categories, and the entries under original_text, toxicity_scores and
    categories are the entries of [analysis_result] under text, toxicity and
    categories. *)
Theorem recommendation_eight_keys (analysis_result : gmap string PyVal)
    (s s' : state X) (out : PyVal) :
  get_moderation_recommendation analysis_result s = (Ret out, s') →
  ∃ (m : gmap string PyVal) (text toxicity categories : PyVal),
    out = PDict m ∧
    dom m = list_to_set ["original_text"; "decision"; "confidence"; "reasons";
                         "policy_violations"; "suggested_edits";
                         "toxicity_scores"; "categories"] ∧
    size m = 8 ∧
    analysis_result !! "text" = Some text ∧
    m !! "original_text" = Some text ∧
    analysis_result !! "toxicity" = Some toxicity ∧
    m !! "toxicity_scores" = Some toxicity ∧
    analysis_result !! "categories" = Some categories ∧
    m !! "categories" = Some categories.
Proof.
  intros Hrun. unfold_tool. unfold subscript in Hrun.
  repeat (case_match; simplify_eq/=).
  all: do 4 eexists; split; [reflexivity|].
  all: split; [rewrite !dom_insert_L, dom_empty_L; set_solver|].
  all: split; [|by simplify_map_eq].
  all: rewrite !map_size_insert_None by by simplify_map_eq.
  all: by rewrite map_size_empty.
Qed.


End Recommendation.

(** C1, as stated: the edit helper is not called exactly when the action is
    not "approve" and [auto_moderate] is true.  Its arguments are evaluated
    before the call, so on an [analysis_result] without a text entry the
    lookup raises [KeyError] and the helper is not entered, although the
    decision is "reject" and [auto_moderate] is on. *)
Lemma edits_wanted_but_not_called :
  @get_moderation_decision nat reject_tools (PDict textless_analysis) (demo_world true)
    = (Ret (demo_decision "reject"), bump (demo_world true)) ∧
  subscript (demo_decision "reject") "action" = Ret (PStr "reject") ∧
  edits_wanted (PStr "reject") (deps (ctx (bump (demo_world true)))) ∧
  (run (@get_moderation_recommendation nat reject_tools textless_analysis)
     (demo_world true)).1 = Raise (KeyError "text") ∧
  calls_of SuggestContentEdits
    (trace (run (@get_moderation_recommendation nat reject_tools textless_analysis)
              (demo_world true)).2) = 0.
Proof.
  split; [reflexivity|]. split; [reflexivity|].
  split; [split; [discriminate | reflexivity]|].
  split; by vm_compute.
Qed.

Lemma suggested_edits_gate_witness :
  @get_moderation_decision nat reject_tools (PDict demo_analysis) (demo_world true)
    = (Ret (demo_decision "reject"), bump (demo_world true)) ∧
  subscript (demo_decision "reject") "action" = Ret (PStr "reject") ∧
  ∃ (r : result PyVal) (s' : state nat),
    run (@get_moderation_recommendation nat reject_tools demo_analysis)
      (demo_world true) = (r, s') ∧
    let d := deps (ctx (bump (demo_world true))) in
    let calls := calls_of SuggestContentEdits (trace s') in
    (@tools_preserve_deps nat reject_tools → d = deps (ctx (demo_world true))) ∧
    (calls ≤ 1)%nat ∧
    (calls = 1 → edits_wanted (PStr "reject") d) ∧
    (edits_wanted (PStr "reject") d →
     is_Some (demo_analysis !! "text") →
     (∃ reasons, subscript (demo_decision "reject") "reasons" = Ret reasons) →
     calls = 1) ∧
    ∀ out, r = Ret out →
      ∃ (m : gmap string PyVal) (suggested_edits : PyVal),
        out = PDict m ∧
        m !! "suggested_edits" = Some suggested_edits ∧
        (suggested_edits ≠ PNone → edits_wanted (PStr "reject") d) ∧
        (auto_moderate d = false → suggested_edits = PNone) ∧
        (calls = 1 ↔ edits_wanted (PStr "reject") d).
Proof.
  split; [reflexivity|]. split; [reflexivity|].
  eexists _, _. split; [reflexivity|].
  apply (@suggested_edits_gate nat reject_tools demo_analysis (demo_world true)
           (bump (demo_world true)) (demo_decision "reject") (PStr "reject"));
    reflexivity.
Defined.

Lemma decision_is_an_action_witness :
  @decision_contract nat reject_tools ∧
  ∃ (out : PyVal) (s' : state nat),
    @get_moderation_recommendation nat reject_tools demo_analysis
      (mkState (demo_world true) []) = (Ret out, s') ∧
    ∃ (m : gmap string PyVal) (action : PyVal),
      out = PDict m ∧
      m !! "decision" = Some action ∧
      (action = PStr "approve" ∨ action = PStr "flag_for_review" ∨
       action = PStr "reject").
Proof.
  assert (@decision_contract nat reject_tools) as Hcontract.
  { apply demo_decision_contract. set_solver. }
  split; [exact Hcontract|].
  eexists _, _. split; [reflexivity|].
  eapply (@decision_is_an_action nat reject_tools demo_analysis
            (mkState (demo_world true) []));
    [exact Hcontract | reflexivity].
Defined.

Lemma recommendation_eight_keys_witness :
  ∃ (out : PyVal) (s' : state nat),
    @get_moderation_recommendation nat reject_tools demo_analysis
      (mkState (demo_world false) []) = (Ret out, s') ∧
    ∃ (m : gmap string PyVal) (text toxicity categories : PyVal),
      out = PDict m ∧
      dom m = list_to_set ["original_text"; "decision"; "confidence"; "reasons";
                           "policy_violations"; "suggested_edits";
                           "toxicity_scores"; "categories"] ∧
      size m = 8 ∧
      demo_analysis !! "text" = Some text ∧
      m !! "original_text" = Some text ∧
      demo_analysis !! "toxicity" = Some toxicity ∧
      m !! "toxicity_scores" = Some toxicity ∧
      demo_analysis !! "categories" = Some categories ∧
      m !! "categories" = Some categories.
Proof.
  eexists _, _. split; [reflexivity|].
  eapply (@recommendation_eight_keys nat reject_tools demo_analysis
            (mkState (demo_world false) [])).
  reflexivity.
Defined.



(** The run of the witness above: the edit helper is called and returns,
    and then the lookup of the toxicity entry fails. *)
Example recommendation_without_toxicity :
  let '(r, s') := run (@get_moderation_recommendation nat reject_tools partial_analysis)
                    (demo_world true) in
  missing_keys partial_analysis (demo_decision_map "reject") = ["toxicity"] ∧
  r = Raise (KeyError "toxicity") ∧
  mark_of <$> trace s' =
    [ Enter GetModerationDecision; Leave GetModerationDecision;
      Enter SuggestContentEdits; Leave SuggestContentEdits ].
Proof. by vm_compute. Qed.

(** With [auto_moderate] off, a rejected post gets no suggested edits and
    the edit helper is not entered. *)
Example recommendation_without_auto_moderate :
  let '(r, s') := run (@get_moderation_recommendation nat reject_tools demo_analysis)
                    (demo_world false) in
  (∃ m, r = Ret (PDict m) ∧ m !! "suggested_edits" = Some PNone ∧
        m !! "decision" = Some (PStr "reject")) ∧
  mark_of <$> trace s' = [ Enter GetModerationDecision; Leave GetModerationDecision ].
Proof. vm_compute. split; [|done]. eexists. split; [done|]. by vm_compute. Qed.

(** The flag is read after the decision helper has run: a helper that sets
    it makes the tool ask for edits although the run started with it off. *)
Example recommendation_reads_flag_after_decision :
  let '(r, s') := run (@get_moderation_recommendation nat meddling_tools demo_analysis)
                    (demo_world false) in
  auto_moderate (deps (ctx (demo_world false))) = false ∧
  auto_moderate (deps (ctx (world s'))) = true ∧
  calls_of SuggestContentEdits (trace s') = 1.
Proof. by vm_compute. Qed.

(** ** Both tools *)

Section BothTools.
Context {X : Type} `{!AgentTools X}.

(** C6. In a run of [analyze_text] or of [get_moderation_recommendation],
    whatever its outcome, the tool's own steps leave [ctx.deps] alone: along
    the trace the record only changes between the entry of a helper and the
    return or raise that answers it.  So when no helper assigns to
    [ctx.deps], the record, with each of its six fields, has its initial
    value at every event of the run and at its end. *)
Theorem deps_frame (w : World X) (r : result PyVal) (s' : state X) :
  tool_run w r s' →
  changes_only_inside_helpers (deps (ctx w)) (trace s') (deps (ctx (world s'))) ∧
  (tools_preserve_deps →
   deps (ctx (world s')) = deps (ctx w) ∧
   Forall (λ ev, ev_deps ev = deps (ctx w)) (trace s')).
Proof.
  intros [(text & context & user_id & Hrun)|(analysis_result & Hrun)].
  all: unfold_tool; unfold subscript in Hrun.
  all: repeat (case_match; simplify_eq/=).
  all: split; [done|].
  all: intros Hkeep; deps_kept.
  all: split; [congruence|].
  all: repeat (constructor; [simpl; congruence|]); constructor.
Qed.

(** C8. The agent is constructed with [retries=2], the only keyword
    arguments of the construction being the system prompt, the type of the
    dependencies and that retry count.  The tools add nothing to it: in a run
    of either tool no helper is called a second time, a helper that raised is
    the last thing that happened (nothing is tried after it), and the tool
    then ends with an exception. *)
Theorem retries_only_resilience (SYSTEM_PROMPT : string) :
  kwarg (text_moderation_agent SYSTEM_PROMPT) "retries" = Some (ArgInt 2) ∧
  (kwargs (text_moderation_agent SYSTEM_PROMPT)).*1 =
    ["system_prompt"; "deps_type"; "retries"] ∧
  ∀ (w : World X) (r : result PyVal) (s' : state X),
    tool_run w r s' →
    (∀ h, calls_of h (trace s') ≤ 1)%nat ∧
    Forall (λ ev, is_raise ev = false) (removelast (trace s')) ∧
    (∀ ev, last (trace s') = Some ev → is_raise ev = true → ∃ e, r = Raise e).
Proof.
  split; [done|]. split; [done|].
  intros w r s' [(text & context & user_id & Hrun)|(analysis_result & Hrun)].
  all: unfold_tool; unfold subscript in Hrun.
  all: repeat (case_match; simplify_eq/=).
  all: split; [intros []; rewrite ?calls_of_cons, ?calls_of_nil; simpl; lia|].
  all: split; [repeat constructor|].
  all: intros ev [= <-]; try done; eauto.
Qed.

End BothTools.

Lemma deps_frame_witness :
  ∃ (r : result PyVal) (s' : state nat),
    @tool_run nat reject_tools (demo_world true) r s' ∧
    @tools_preserve_deps nat reject_tools ∧
    changes_only_inside_helpers (deps (ctx (demo_world true))) (trace s')
      (deps (ctx (world s'))) ∧
    deps (ctx (world s')) = deps (ctx (demo_world true)) ∧
    Forall (λ ev, ev_deps ev = deps (ctx (demo_world true))) (trace s').
Proof.
  assert (@tool_run nat reject_tools (demo_world true)
            (run (@get_moderation_recommendation nat reject_tools demo_analysis)
               (demo_world true)).1
            (run (@get_moderation_recommendation nat reject_tools demo_analysis)
               (demo_world true)).2) as Hrun.
  { right. exists demo_analysis. reflexivity. }
  assert (@tools_preserve_deps nat reject_tools) as Hkeep.
  { apply demo_tools_preserve_deps. }
  destruct (@deps_frame nat reject_tools _ _ _ Hrun) as [Hquiet Hsame].
  eexists _, _. split; [exact Hrun|]. split; [exact Hkeep|].
  split; [exact Hquiet|]. exact (Hsame Hkeep).
Defined.

(** A helper that assigns to [ctx.deps] changes it, but the change lies
    between its entry and its return. *)
Example deps_changed_by_a_helper :
  let '(r, s') := run (@get_moderation_recommendation nat meddling_tools demo_analysis)
                    (demo_world false) in
  changes_only_inside_helpers (deps (ctx (demo_world false))) (trace s')
    (deps (ctx (world s'))) ∧
  deps (ctx (world s')) ≠ deps (ctx (demo_world false)).
Proof. vm_compute. split; [done|]. discriminate. Qed.

(** ** The dependencies record *)

(** C7, as stated: it does not hold of every [Deps], since the constructor
    stores the threshold it is given without looking at it. *)
Lemma sensitivity_threshold_unchecked :
  ¬ ∀ d : Deps, in_unit_interval (sensitivity_threshold d) = true.
Proof.
  intros Hall.
  specialize (Hall (Deps_init {| client_id := 0 |} None None (Some float_5_0)
                      None None)).
  vm_compute in Hall. discriminate.
Qed.

(** C7, amended. A [Deps] constructed without an explicit
    [sensitivity_threshold] holds the default [0.7], which lies between [0.0]
    and [1.0]; an explicitly supplied threshold is stored as it is given,
    whatever it is: the constructor makes no range check. *)
Theorem sensitivity_threshold_default_or_given (client : AsyncClient)
    (moderation_api_key : option (option string))
    (custom_content_policies : option (option (gmap string (list string))))
    (store_flagged_content auto_moderate : option bool) :
  (let d := Deps_init client moderation_api_key custom_content_policies None
              store_flagged_content auto_moderate in
   sensitivity_threshold d = float_0_7 ∧
   in_unit_interval (sensitivity_threshold d) = true) ∧
  (∀ x : spec_float,
     sensitivity_threshold
       (Deps_init client moderation_api_key custom_content_policies (Some x)
          store_flagged_content auto_moderate) = x).
Proof. split; [split; reflexivity | intros x; reflexivity]. Qed.

(** * Further properties of the tools *)

(** Membership in a list that is written out. *)
Ltac in_list :=
  repeat first [apply list_elem_of_here | apply list_elem_of_further].

(** ** [analyze_text] *)

Section MoreAnalyzeText.
Context {X : Type} `{!AgentTools X}.

(** What a returning run of [analyze_text] went through. *)
Lemma analyze_text_returns (text : string) (context user_id : option string)
    (s s' : state X) (out : PyVal) :
  analyze_text text context user_id s = (Ret out, s') →
  ∃ (toxicity sensitive categories : PyVal) (w1 w2 : World X),
    check_text_toxicity text (world s) = (Ret toxicity, w1) ∧
    detect_sensitive_information text w1 = (Ret sensitive, w2) ∧
    categorize_content text context w2 = (Ret categories, world s') ∧
    out = PDict
      (<["user_id" := of_optional user_id]>
      (<["context" := of_optional context]>
      (<["categories" := categories]>
      (<["sensitive_information" := sensitive]>
      (<["toxicity" := toxicity]>
      (<["text" := PStr text]> ∅)))))).
Proof.
  intros Hrun. unfold_tool. repeat (case_match; simplify_eq/=).
  do 5 eexists. by repeat split.
Qed.

(** X1. The toxicity, sensitive_information and categories entries of what
    [analyze_text] returns are the values the three helpers returned, the
    first run on the initial world, each next one on the world its
    predecessor left; the world the tool leaves is the one the
    categorization left. *)
Theorem analyze_text_helper_entries (text : string)
    (context user_id : option string) (s s' : state X) (out : PyVal) :
  analyze_text text context user_id s = (Ret out, s') →
  ∃ (toxicity sensitive categories : PyVal) (w1 w2 : World X),
    check_text_toxicity text (world s) = (Ret toxicity, w1) ∧
    detect_sensitive_information text w1 = (Ret sensitive, w2) ∧
    categorize_content text context w2 = (Ret categories, world s') ∧
    subscript out "toxicity" = Ret toxicity ∧
    subscript out "sensitive_information" = Ret sensitive ∧
    subscript out "categories" = Ret categories.
Proof.
  intros (toxicity & sensitive & categories & w1 & w2 & Ht & Hs & Hc & ->)
    %analyze_text_returns.
  exists toxicity, sensitive, categories, w1, w2.
  repeat split; try done; by simplify_map_eq.
Qed.

(** X2. Whatever its outcome, a run of [analyze_text] leaves one of four
    traces: the three helpers entered and left in order, or that sequence cut
    at the first helper that raised.  So a helper is entered only after its
    predecessors returned, nothing is entered after a failure, and the run
    ends with an exception exactly when its trace ends with a helper that
    raised. *)
Theorem analyze_text_trace_shapes (text : string)
    (context user_id : option string) (w : World X) (r : result PyVal)
    (s' : state X) :
  run (analyze_text text context user_id) w = (r, s') →
  mark_of <$> trace s' ∈ analyze_text_traces ∧
  (ends_in_failure (mark_of <$> trace s') = true ↔ ∃ e, r = Raise e).
Proof.
  intros Hrun. unfold_tool. repeat (case_match; simplify_eq/=).
  all: split; [unfold analyze_text_traces; in_list|].
  all: split; [try done; by eexists | try done; by intros [??] ].
Qed.

End MoreAnalyzeText.

(** ** [get_moderation_recommendation] *)

Section MoreRecommendation.
Context {X : Type} `{!AgentTools X}.

(** What a returning run of [get_moderation_recommendation] went through. *)
Lemma recommendation_returns (analysis_result : gmap string PyVal)
    (s s' : state X) (out : PyVal) :
  get_moderation_recommendation analysis_result s = (Ret out, s') →
  ∃ (decision : gmap string PyVal) (w1 : World X)
    (action text confidence reasons violations toxicity categories edits : PyVal),
    get_moderation_decision (PDict analysis_result) (world s)
      = (Ret (PDict decision), w1) ∧
    decision !! "action" = Some action ∧
    decision !! "confidence" = Some confidence ∧
    decision !! "reasons" = Some reasons ∧
    decision !! "policy_violations" = Some violations ∧
    analysis_result !! "text" = Some text ∧
    analysis_result !! "toxicity" = Some toxicity ∧
    analysis_result !! "categories" = Some categories ∧
    out = PDict
      (<["categories" := categories]>
      (<["toxicity_scores" := toxicity]>
      (<["suggested_edits" := edits]>
      (<["policy_violations" := violations]>
      (<["reasons" := reasons]>
      (<["confidence" := confidence]>
      (<["decision" := action]>
      (<["original_text" := text]> ∅)))))))) ∧
    ((py_ne_str action "approve" && auto_moderate (deps (ctx w1)) = true ∧
      suggest_content_edits text reasons w1 = (Ret edits, world s') ∧
      mark_of <$> trace s' =
        ((mark_of <$> trace s) ++
         [ Enter GetModerationDecision; Leave GetModerationDecision;
           Enter SuggestContentEdits; Leave SuggestContentEdits ])%list) ∨
     (py_ne_str action "approve" && auto_moderate (deps (ctx w1)) = false ∧
      edits = PNone ∧ world s' = w1 ∧
      mark_of <$> trace s' =
        ((mark_of <$> trace s) ++
         [ Enter GetModerationDecision; Leave GetModerationDecision ])%list)).
Proof.
  intros Hrun. unfold_tool. unfold subscript in Hrun.
  repeat (case_match; simplify_eq/=).
  all: do 10 eexists; repeat (split; [first [eassumption | reflexivity]|]).
  - left. rewrite !fmap_app, <- !app_assoc.
    repeat split; try done. by apply andb_true_intro.
  - right. rewrite !fmap_app, <- !app_assoc.
    repeat split; try done. by apply andb_false_intro2.
  - right. rewrite !fmap_app, <- !app_assoc.
    repeat split; try done.
    match goal with Hne : py_ne_str _ _ = false |- _ => by rewrite Hne end.
Qed.

(** X3. Whatever its outcome, a run of [get_moderation_recommendation]
    leaves one of four traces: the decision helper entered and failing; the
    decision helper entered and left; that followed by the edit helper
    entered and failing, or entered and left.  So the decision helper is
    entered first and once in every run, the edit helper only after the
    decision helper returned, the three analysis helpers never, and a trace
    that ends with a helper that raised belongs to a run that raises. *)
Theorem recommendation_trace_shapes (analysis_result : gmap string PyVal)
    (w : World X) (r : result PyVal) (s' : state X) :
  run (get_moderation_recommendation analysis_result) w = (r, s') →
  mark_of <$> trace s' ∈ recommendation_traces ∧
  (ends_in_failure (mark_of <$> trace s') = true → ∃ e, r = Raise e).
Proof.
  intros Hrun. unfold_tool. unfold subscript in Hrun.
  repeat (case_match; simplify_eq/=).
  all: split; [unfold recommendation_traces; in_list|].
  all: try done; by eexists.
Qed.

(** X4. In what [get_moderation_recommendation] returns, the entries
    decision, confidence, reasons and policy_violations are the entries
    action, confidence, reasons and policy_violations of what the decision
    helper returned for [analysis_result], unchanged. *)
Theorem recommendation_decision_entries (analysis_result : gmap string PyVal)
    (s s' : state X) (out : PyVal) :
  get_moderation_recommendation analysis_result s = (Ret out, s') →
  ∃ (decision : PyVal) (w1 : World X),
    get_moderation_decision (PDict analysis_result) (world s) = (Ret decision, w1) ∧
    subscript out "decision" = subscript decision "action" ∧
    subscript out "confidence" = subscript decision "confidence" ∧
    subscript out "reasons" = subscript decision "reasons" ∧
    subscript out "policy_violations" = subscript decision "policy_violations".
Proof.
  intros (decision & w1 & action & text & confidence & reasons & violations &
          toxicity & categories & edits & Hdec & Ha & Hc & Hr & Hv & _ & _ & _ &
          -> & _)%recommendation_returns.
  exists (PDict decision), w1. split; [done|]. simpl.
  rewrite Ha, Hc, Hr, Hv. by simplify_map_eq.
Qed.

(** X5. In what [get_moderation_recommendation] returns, suggested_edits is
    either [None], the tool leaving the world as the decision helper left
    it, or the value the edit helper returned when called with
    [analysis_result["text"]] and the decision's reasons on the world the
    decision helper left, the tool leaving the world as the edit helper left
    it. *)
Theorem suggested_edits_provenance (analysis_result : gmap string PyVal)
    (s s' : state X) (out : PyVal) :
  get_moderation_recommendation analysis_result s = (Ret out, s') →
  ∃ (decision : PyVal) (w1 : World X),
    get_moderation_decision (PDict analysis_result) (world s) = (Ret decision, w1) ∧
    ((subscript out "suggested_edits" = Ret PNone ∧ world s' = w1) ∨
     (∃ text reasons edits,
        analysis_result !! "text" = Some text ∧
        subscript decision "reasons" = Ret reasons ∧
        suggest_content_edits text reasons w1 = (Ret edits, world s') ∧
        subscript out "suggested_edits" = Ret edits)).
Proof.
  intros (decision & w1 & action & text & confidence & reasons & violations &
          toxicity & categories & edits & Hdec & Ha & Hc & Hr & Hv & Ht & _ & _ &
          -> & Hedits)%recommendation_returns.
  exists (PDict decision), w1. split; [done|].
  destruct Hedits as [(_ & Hcall & _)|(_ & -> & Hw & _)].
  - right. exists text, reasons, edits. simpl. rewrite Hr.
    repeat split; try done; by simplify_map_eq.
  - left. split; [by simplify_map_eq | done].
Qed.

(** X6. If the decision helper raises, [get_moderation_recommendation] ends
    with that exception, in the world the helper left, and nothing else was
    entered: no lookup is made and the edit helper is not called. *)
Theorem decision_failure_propagates (analysis_result : gmap string PyVal)
    (w w1 : World X) (e : exn) :
  get_moderation_decision (PDict analysis_result) w = (Raise e, w1) →
  ∃ s', run (get_moderation_recommendation analysis_result) w = (Raise e, s') ∧
        world s' = w1 ∧
        mark_of <$> trace s' =
          [ Enter GetModerationDecision; Fail GetModerationDecision ].
Proof.
  intros Hdec. unfold_tool. rewrite Hdec. by eexists.
Qed.

(** X7. If the decision is a mapping with an action other than "approve",
    [auto_moderate] is on, the text and the reasons can be looked up, and the
    edit helper raises, then [get_moderation_recommendation] ends with that
    exception, in the world the edit helper left: no recommendation is
    returned for the decision already obtained. *)
Theorem edit_failure_propagates (analysis_result decision : gmap string PyVal)
    (w w1 w2 : World X) (action text reasons : PyVal) (e : exn) :
  get_moderation_decision (PDict analysis_result) w = (Ret (PDict decision), w1) →
  decision !! "action" = Some action →
  edits_wanted action (deps (ctx w1)) →
  analysis_result !! "text" = Some text →
  decision !! "reasons" = Some reasons →
  suggest_content_edits text reasons w1 = (Raise e, w2) →
  ∃ s', run (get_moderation_recommendation analysis_result) w = (Raise e, s') ∧
        world s' = w2 ∧
        mark_of <$> trace s' =
          [ Enter GetModerationDecision; Leave GetModerationDecision;
            Enter SuggestContentEdits; Fail SuggestContentEdits ].
Proof.
  intros Hdec Ha [Hne%py_ne_str_spec Hauto] Ht Hr Hedit.
  unfold_tool. rewrite Hdec. cbn. rewrite Ha. cbn. rewrite Hne. cbn.
  rewrite Hauto. cbn. rewrite Ht, Hr. cbn. rewrite Hedit. by eexists.
Qed.

(** X8. If what the decision helper returns is not a mapping (for instance
    [None]), [get_moderation_recommendation] raises a [TypeError] at its
    first subscript, and the edit helper is not called. *)
Theorem decision_not_a_mapping (analysis_result : gmap string PyVal)
    (w w1 : World X) (decision : PyVal) :
  get_moderation_decision (PDict analysis_result) w = (Ret decision, w1) →
  (∀ m, decision ≠ PDict m) →
  ∃ msg s',
    run (get_moderation_recommendation analysis_result) w
      = (Raise (TypeError msg), s') ∧
    world s' = w1 ∧
    mark_of <$> trace s' =
      [ Enter GetModerationDecision; Leave GetModerationDecision ].
Proof.
  intros Hdec Hnot. unfold_tool. rewrite Hdec.
  destruct decision; try by (cbn; do 2 eexists).
  by destruct (Hnot m).
Qed.

(** X9. If the decision mapping has no action, the tool raises
    [KeyError("action")], whatever else is missing and whatever
    [auto_moderate] is, and the edit helper is not called. *)
Theorem missing_action_reported_first (analysis_result decision : gmap string PyVal)
    (w w1 : World X) :
  get_moderation_decision (PDict analysis_result) w = (Ret (PDict decision), w1) →
  decision !! "action" = None →
  ∃ s', run (get_moderation_recommendation analysis_result) w
          = (Raise (KeyError "action"), s') ∧
        world s' = w1 ∧
        mark_of <$> trace s' =
          [ Enter GetModerationDecision; Leave GetModerationDecision ].
Proof.
  intros Hdec Ha. unfold_tool. rewrite Hdec. cbn. rewrite Ha. by eexists.
Qed.

(** X10. If the decision mapping has an action and [analysis_result] has no
    text, the tool raises [KeyError("text")] and the edit helper is not
    called, whether or not edits were wanted: the text is looked up before
    the edit call, and again first among the entries of the result. *)
Theorem missing_text_reported (analysis_result decision : gmap string PyVal)
    (w w1 : World X) :
  get_moderation_decision (PDict analysis_result) w = (Ret (PDict decision), w1) →
  is_Some (decision !! "action") →
  analysis_result !! "text" = None →
  ∃ s', run (get_moderation_recommendation analysis_result) w
          = (Raise (KeyError "text"), s') ∧
        world s' = w1 ∧
        mark_of <$> trace s' =
          [ Enter GetModerationDecision; Leave GetModerationDecision ].
Proof.
  intros Hdec [action Ha] Ht. unfold_tool. rewrite Hdec. cbn. rewrite Ha. cbn.
  destruct (py_ne_str action "approve"); [destruct (auto_moderate _)|].
  all: cbn; rewrite Ht; by eexists.
Qed.

(** X11. When the decision is a mapping with an action and the edit helper
    does not fail, the tool returns exactly when none of its lookups fails,
    and otherwise raises [KeyError] for the first key that is missing in the
    order of its lookups: text and reasons first when edits are wanted, then
    text, confidence, reasons, policy_violations, toxicity, categories. *)
Theorem first_missing_key_reported (analysis_result decision : gmap string PyVal)
    (w w1 : World X) (action : PyVal) :
  get_moderation_decision (PDict analysis_result) w = (Ret (PDict decision), w1) →
  decision !! "action" = Some action →
  (∀ text reasons, ∃ v w2, suggest_content_edits text reasons w1 = (Ret v, w2)) →
  let flagged := py_ne_str action "approve" && auto_moderate (deps (ctx w1)) in
  let r := (run (get_moderation_recommendation analysis_result) w).1 in
  match first_missing analysis_result decision flagged with
  | Some k => r = Raise (KeyError k)
  | None => ∃ out, r = Ret out
  end.
Proof.
  intros Hdec Ha Hedits flagged r. subst flagged r.
  unfold_tool. rewrite Hdec. cbn. rewrite Ha. cbn.
  unfold first_missing, lookup_order, lacks.
  destruct (py_ne_str action "approve"); [destruct (auto_moderate _)|]; cbn.
  all: rewrite ?Ha; cbn.
  all: repeat
    match goal with
    | |- context [suggest_content_edits ?t ?rs _] =>
        destruct (Hedits t rs) as (? & ? & ->); cbn
    | |- context [?m !! ?k] => destruct (m !! k) eqn:?; cbn
    end.
  all: try done; by eexists.
Qed.

(** X12. With dependencies constructed without an [auto_moderate] argument
    (the flag then defaults to off) and a decision helper that does not
    assign to [ctx.deps], [get_moderation_recommendation] never calls the
    edit helper, and suggested_edits is [None] in whatever it returns, also
    for a rejected text. *)
Theorem default_deps_no_edits (analysis_result : gmap string PyVal)
    (w : World X) (r : result PyVal) (s' : state X) (client : AsyncClient)
    (moderation_api_key : option (option string))
    (custom_content_policies : option (option (gmap string (list string))))
    (sensitivity_threshold : option spec_float)
    (store_flagged_content : option bool) :
  deps (ctx w) = Deps_init client moderation_api_key custom_content_policies
                   sensitivity_threshold store_flagged_content None →
  keeps_deps (get_moderation_decision (PDict analysis_result)) →
  run (get_moderation_recommendation analysis_result) w = (r, s') →
  calls_of SuggestContentEdits (trace s') = 0 ∧
  ∀ out, r = Ret out → subscript out "suggested_edits" = Ret PNone.
Proof.
  intros Hdeps Hkeep Hrun.
  unfold_tool. unfold subscript in Hrun.
  repeat (case_match; simplify_eq/=).
  all: match goal with
       | Hd : get_moderation_decision _ _ = _ |- _ =>
           pose proof (keeps_deps_eq _ _ _ _ Hkeep Hd) as Hsame;
           rewrite Hdeps in Hsame
       end.
  all: try match goal with
           | Hon : auto_moderate _ = true |- _ => by rewrite Hsame in Hon
           end.
  all: split; [done|]; intros; simplify_eq/=; by simplify_map_eq.
Qed.

(** X13. What [analyze_text] returns is fit for
    [get_moderation_recommendation]: it has the three keys the latter looks
    up in its argument, so that only keys of the decision can be missing;
    and whatever recommendation is returned for it has the analysed text as
    original_text, and the toxicity and categories entries of the analysis
    as toxicity_scores and categories. *)
Theorem analysis_feeds_recommendation (text : string)
    (context user_id : option string) (s s1 : state X) (out : PyVal) :
  analyze_text text context user_id s = (Ret out, s1) →
  ∃ analysis : gmap string PyVal,
    out = PDict analysis ∧
    (∀ decision, missing_keys analysis decision
                 = List.filter (lacks decision) decision_keys) ∧
    ∀ (s2 s3 : state X) (recommendation : PyVal),
      get_moderation_recommendation analysis s2 = (Ret recommendation, s3) →
      subscript recommendation "original_text" = Ret (PStr text) ∧
      subscript recommendation "toxicity_scores" = subscript out "toxicity" ∧
      subscript recommendation "categories" = subscript out "categories".
Proof.
  intros (toxicity & sensitive & categories & w1 & w2 & _ & _ & _ & ->)
    %analyze_text_returns.
  eexists. split; [reflexivity|]. split.
  - intros decision. unfold missing_keys, analysis_keys, lacks. simpl.
    by simplify_map_eq.
  - intros s2 s3 recommendation
      (? & ? & ? & ? & ? & ? & ? & ? & ? & ? & _ & _ & _ & _ & _ & Ht & Hx & Hc &
       -> & _)%recommendation_returns.
    by simplify_map_eq.
Qed.

End MoreRecommendation.

(** ** The further properties on concrete helpers *)

Lemma analyze_text_helper_entries_witness :
  ∃ (out : PyVal) (s' : state nat),
    @analyze_text nat reject_tools "you fool" (Some "forum") None
      (mkState (demo_world false) []) = (Ret out, s') ∧
    ∃ (toxicity sensitive categories : PyVal) (w1 w2 : World nat),
      @check_text_toxicity nat reject_tools "you fool" (demo_world false)
        = (Ret toxicity, w1) ∧
      @detect_sensitive_information nat reject_tools "you fool" w1
        = (Ret sensitive, w2) ∧
      @categorize_content nat reject_tools "you fool" (Some "forum") w2
        = (Ret categories, world s') ∧
      subscript out "toxicity" = Ret toxicity ∧
      subscript out "sensitive_information" = Ret sensitive ∧
      subscript out "categories" = Ret categories.
Proof.
  eexists _, _. split; [reflexivity|].
  eapply (@analyze_text_helper_entries nat reject_tools "you fool"
            (Some "forum") None (mkState (demo_world false) [])).
  reflexivity.
Defined.

Lemma analyze_text_trace_shapes_witness :
  ∃ (r : result PyVal) (s' : state nat),
    run (@analyze_text nat reject_tools "you fool" None None) (demo_world false)
      = (r, s') ∧
    mark_of <$> trace s' ∈ analyze_text_traces ∧
    (ends_in_failure (mark_of <$> trace s') = true ↔ ∃ e, r = Raise e).
Proof.
  eexists _, _. split; [reflexivity|].
  eapply (@analyze_text_trace_shapes nat reject_tools "you fool" None None
            (demo_world false)).
  reflexivity.
Defined.

Lemma recommendation_trace_shapes_witness :
  ∃ (r : result PyVal) (s' : state nat),
    run (@get_moderation_recommendation nat failing_edit_tools demo_analysis)
      (demo_world true) = (r, s') ∧
    mark_of <$> trace s' ∈ recommendation_traces ∧
    (ends_in_failure (mark_of <$> trace s') = true → ∃ e, r = Raise e).
Proof.
  eexists _, _. split; [reflexivity|].
  eapply (@recommendation_trace_shapes nat failing_edit_tools demo_analysis
            (demo_world true)).
  reflexivity.
Defined.

Lemma recommendation_decision_entries_witness :
  ∃ (out : PyVal) (s' : state nat),
    @get_moderation_recommendation nat reject_tools demo_analysis
      (mkState (demo_world true) []) = (Ret out, s') ∧
    ∃ (decision : PyVal) (w1 : World nat),
      @get_moderation_decision nat reject_tools (PDict demo_analysis)
        (demo_world true) = (Ret decision, w1) ∧
      subscript out "decision" = subscript decision "action" ∧
      subscript out "confidence" = subscript decision "confidence" ∧
      subscript out "reasons" = subscript decision "reasons" ∧
      subscript out "policy_violations" = subscript decision "policy_violations".
Proof.
  eexists _, _. split; [reflexivity|].
  eapply (@recommendation_decision_entries nat reject_tools demo_analysis
            (mkState (demo_world true) [])).
  reflexivity.
Defined.

Lemma suggested_edits_provenance_witness :
  ∃ (out : PyVal) (s' : state nat),
    @get_moderation_recommendation nat reject_tools demo_analysis
      (mkState (demo_world true) []) = (Ret out, s') ∧
    ∃ (decision : PyVal) (w1 : World nat),
      @get_moderation_decision nat reject_tools (PDict demo_analysis)
        (demo_world true) = (Ret decision, w1) ∧
      ((subscript out "suggested_edits" = Ret PNone ∧ world s' = w1) ∨
       (∃ text reasons edits,
          demo_analysis !! "text" = Some text ∧
          subscript decision "reasons" = Ret reasons ∧
          @suggest_content_edits nat reject_tools text reasons w1
            = (Ret edits, world s') ∧
          subscript out "suggested_edits" = Ret edits)).
Proof.
  eexists _, _. split; [reflexivity|].
  eapply (@suggested_edits_provenance nat reject_tools demo_analysis
            (mkState (demo_world true) [])).
  reflexivity.
Defined.

Lemma decision_failure_propagates_witness :
  @get_moderation_decision nat failing_decision_tools (PDict demo_analysis)
    (demo_world true)
    = (Raise (OtherError "HTTPStatusError" "503"), bump (demo_world true)) ∧
  ∃ s', run (@get_moderation_recommendation nat failing_decision_tools
               demo_analysis) (demo_world true)
          = (Raise (OtherError "HTTPStatusError" "503"), s') ∧
        world s' = bump (demo_world true) ∧
        mark_of <$> trace s' =
          [ Enter GetModerationDecision; Fail GetModerationDecision ].
Proof.
  split; [reflexivity|].
  apply (@decision_failure_propagates nat failing_decision_tools demo_analysis
           (demo_world true) (bump (demo_world true))).
  reflexivity.
Defined.

Lemma edit_failure_propagates_witness :
  @get_moderation_decision nat failing_edit_tools (PDict demo_analysis)
    (demo_world true)
    = (Ret (PDict (demo_decision_map "reject")), bump (demo_world true)) ∧
  edits_wanted (PStr "reject") (deps (ctx (bump (demo_world true)))) ∧
  @suggest_content_edits nat failing_edit_tools (PStr "you fool")
    (PList [PStr "insult"]) (bump (demo_world true))
    = (Raise (OtherError "TimeoutError" "edit service"),
       bump (bump (demo_world true))) ∧
  ∃ s', run (@get_moderation_recommendation nat failing_edit_tools
               demo_analysis) (demo_world true)
          = (Raise (OtherError "TimeoutError" "edit service"), s') ∧
        world s' = bump (bump (demo_world true)) ∧
        mark_of <$> trace s' =
          [ Enter GetModerationDecision; Leave GetModerationDecision;
            Enter SuggestContentEdits; Fail SuggestContentEdits ].
Proof.
  assert (edits_wanted (PStr "reject") (deps (ctx (bump (demo_world true)))))
    as Hwanted.
  { split; [discriminate | reflexivity]. }
  split; [reflexivity|]. split; [exact Hwanted|]. split; [reflexivity|].
  apply (@edit_failure_propagates nat failing_edit_tools demo_analysis
           (demo_decision_map "reject") (demo_world true)
           (bump (demo_world true)) (bump (bump (demo_world true)))
           (PStr "reject") (PStr "you fool") (PList [PStr "insult"])
           (OtherError "TimeoutError" "edit service"));
    first [exact Hwanted | reflexivity].
Defined.

Lemma decision_not_a_mapping_witness :
  @get_moderation_decision nat (demo_tools (Ret PNone) (Ret PNone))
    (PDict demo_analysis) (demo_world true) = (Ret PNone, bump (demo_world true)) ∧
  (∀ m, PNone ≠ PDict m) ∧
  ∃ msg s',
    run (@get_moderation_recommendation nat (demo_tools (Ret PNone) (Ret PNone))
           demo_analysis) (demo_world true) = (Raise (TypeError msg), s') ∧
    world s' = bump (demo_world true) ∧
    mark_of <$> trace s' =
      [ Enter GetModerationDecision; Leave GetModerationDecision ].
Proof.
  assert (∀ m, PNone ≠ PDict m) as Hnot by (intros m; discriminate).
  split; [reflexivity|]. split; [exact Hnot|].
  apply (@decision_not_a_mapping nat (demo_tools (Ret PNone) (Ret PNone))
           demo_analysis (demo_world true) (bump (demo_world true)) PNone);
    [reflexivity | exact Hnot].
Defined.

Lemma missing_action_reported_first_witness :
  @get_moderation_decision nat (demo_tools (Ret (PDict ∅)) (Ret PNone))
    (PDict textless_analysis) (demo_world true)
    = (Ret (PDict ∅), bump (demo_world true)) ∧
  (∅ : gmap string PyVal) !! "action" = None ∧
  ∃ s', run (@get_moderation_recommendation nat
               (demo_tools (Ret (PDict ∅)) (Ret PNone)) textless_analysis)
          (demo_world true) = (Raise (KeyError "action"), s') ∧
        world s' = bump (demo_world true) ∧
        mark_of <$> trace s' =
          [ Enter GetModerationDecision; Leave GetModerationDecision ].
Proof.
  split; [reflexivity|]. split; [reflexivity|].
  apply (@missing_action_reported_first nat
           (demo_tools (Ret (PDict ∅)) (Ret PNone)) textless_analysis ∅
           (demo_world true) (bump (demo_world true)));
    reflexivity.
Defined.

Lemma missing_text_reported_witness :
  @get_moderation_decision nat reject_tools (PDict textless_analysis)
    (demo_world true)
    = (Ret (PDict (demo_decision_map "reject")), bump (demo_world true)) ∧
  is_Some (demo_decision_map "reject" !! "action") ∧
  textless_analysis !! "text" = None ∧
  ∃ s', run (@get_moderation_recommendation nat reject_tools textless_analysis)
          (demo_world true) = (Raise (KeyError "text"), s') ∧
        world s' = bump (demo_world true) ∧
        mark_of <$> trace s' =
          [ Enter GetModerationDecision; Leave GetModerationDecision ].
Proof.
  assert (is_Some (demo_decision_map "reject" !! "action")) as Haction.
  { exists (PStr "reject"). reflexivity. }
  split; [reflexivity|]. split; [exact Haction|]. split; [reflexivity|].
  apply (@missing_text_reported nat reject_tools textless_analysis
           (demo_decision_map "reject") (demo_world true)
           (bump (demo_world true)));
    first [exact Haction | reflexivity].
Defined.

Lemma first_missing_key_reported_witness :
  @get_moderation_decision nat reject_tools (PDict partial_analysis)
    (demo_world true)
    = (Ret (PDict (demo_decision_map "reject")), bump (demo_world true)) ∧
  demo_decision_map "reject" !! "action" = Some (PStr "reject") ∧
  (∀ text reasons, ∃ v w2,
     @suggest_content_edits nat reject_tools text reasons (bump (demo_world true))
       = (Ret v, w2)) ∧
  first_missing partial_analysis (demo_decision_map "reject") true
    = Some "toxicity" ∧
  (run (@get_moderation_recommendation nat reject_tools partial_analysis)
     (demo_world true)).1 = Raise (KeyError "toxicity").
Proof.
  assert (∀ text reasons, ∃ v w2,
            @suggest_content_edits nat reject_tools text reasons
              (bump (demo_world true)) = (Ret v, w2)) as Hedits.
  { intros text reasons. eexists _, _. reflexivity. }
  split; [reflexivity|]. split; [reflexivity|]. split; [exact Hedits|].
  split; [reflexivity|].
  exact (@first_missing_key_reported nat reject_tools partial_analysis
           (demo_decision_map "reject") (demo_world true)
           (bump (demo_world true)) (PStr "reject") eq_refl eq_refl Hedits).
Defined.

Lemma default_deps_no_edits_witness :
  deps (ctx default_world)
    = Deps_init {| client_id := 0 |} None None None None None ∧
  keeps_deps (@get_moderation_decision nat reject_tools (PDict demo_analysis)) ∧
  ∃ (r : result PyVal) (s' : state nat),
    run (@get_moderation_recommendation nat reject_tools demo_analysis)
      default_world = (r, s') ∧
    calls_of SuggestContentEdits (trace s') = 0 ∧
    ∀ out, r = Ret out → subscript out "suggested_edits" = Ret PNone.
Proof.
  assert (keeps_deps
            (@get_moderation_decision nat reject_tools (PDict demo_analysis)))
    as Hkeep.
  { intros w. reflexivity. }
  split; [reflexivity|]. split; [exact Hkeep|].
  eexists _, _. split; [reflexivity|].
  eapply (@default_deps_no_edits nat reject_tools demo_analysis default_world);
    [reflexivity | exact Hkeep | reflexivity].
Defined.

Lemma analysis_feeds_recommendation_witness :
  ∃ (out : PyVal) (s1 : state nat),
    @analyze_text nat reject_tools "you fool" None (Some "u42")
      (mkState (demo_world true) []) = (Ret out, s1) ∧
    ∃ analysis : gmap string PyVal,
      out = PDict analysis ∧
      (∀ decision, missing_keys analysis decision
                   = List.filter (lacks decision) decision_keys) ∧
      ∀ (s2 s3 : state nat) (recommendation : PyVal),
        @get_moderation_recommendation nat reject_tools analysis s2
          = (Ret recommendation, s3) →
        subscript recommendation "original_text" = Ret (PStr "you fool") ∧
        subscript recommendation "toxicity_scores" = subscript out "toxicity" ∧
        subscript recommendation "categories" = subscript out "categories".
Proof.
  eexists _, _. split; [reflexivity|].
  eapply (@analysis_feeds_recommendation nat reject_tools "you fool" None
            (Some "u42") (mkState (demo_world true) [])).
  reflexivity.
Defined.

(** The two tools in a row on the concrete helpers: the rejected text comes
    back with the edit proposed for it. *)
Example analyze_then_recommend :
  let '(analysis, s1) :=
    run (@analyze_text nat reject_tools "you fool" None None) (demo_world true) in
  match analysis with
  | Ret (PDict m) =>
      let '(r, s2) := @get_moderation_recommendation nat reject_tools m s1 in
      (∃ out, r = Ret out ∧
         subscript out "original_text" = Ret (PStr "you fool") ∧
         subscript out "decision" = Ret (PStr "reject") ∧
         subscript out "suggested_edits" = Ret (PStr "you are mistaken")) ∧
      mark_of <$> trace s2 =
        [ Enter CheckTextToxicity; Leave CheckTextToxicity;
          Enter DetectSensitiveInformation; Leave DetectSensitiveInformation;
          Enter CategorizeContent; Leave CategorizeContent;
          Enter GetModerationDecision; Leave GetModerationDecision;
          Enter SuggestContentEdits; Leave SuggestContentEdits ] ∧
      outside (world s2) = 5
  | _ => False
  end.
Proof. vm_compute. split; [|done]. eexists. split; [done|]. by vm_compute. Qed.
